(** * DermaAI chat client: the session logic of [src/App.js]

    A shallow embedding of the React component [App]: its five state
    cells, the two confidence handlers, and the two asynchronous
    submit handlers, together with the properties of the session
    state machine that its specification states. *)

From Stdlib Require Import ZArith QArith Qround Qabs String Ascii Lia.
From stdpp Require Import base list relations.

Local Open Scope string_scope.

(** * JavaScript values used by the component *)

Module JS.

(** Truthiness of an optional string field ([if (data.response)]):
    [undefined] and the empty string are falsy; a truthy field yields
    its string. *)
Definition truthy_str (v : option string) : option string :=
  match v with
  | Some EmptyString => None
  | Some s => Some s
  | None => None
  end.

(** A JSON number is carried by the exact rational value of the double
    it parses to.  [!c] holds for an absent field and for zero. *)
Definition truthy_num (v : option Q) : bool :=
  match v with
  | Some q => negb (Qeq_bool q 0)
  | None => false
  end.

(** [x < y] on numbers. *)
Definition ltb (x y : Q) : bool := negb (Qle_bool y x).

Arguments ltb (x y)%_Q.

(** String concatenation coerces a missing operand to ["undefined"]. *)
Definition to_string (v : option string) : string :=
  match v with
  | Some s => s
  | None => "undefined"
  end.

(** ** Decimal digits of a non-negative integer *)

Definition digit (d : Z) : ascii := ascii_of_nat (48 + Z.to_nat d).

Fixpoint digits_fuel (fuel : nat) (n : Z) : string :=
  match fuel with
  | O => String (digit n) EmptyString
  | S fuel' =>
      if (n <? 10)%Z then String (digit n) EmptyString
      else digits_fuel fuel' (n / 10) ++ String (digit (n mod 10)) EmptyString
  end.

(** The digits of the decimal representation of [n], most significant
    first, without leading zeroes; ["0"] for zero.  [Z.log2 n] bounds
    the number of divisions by ten. *)
Definition digits (n : Z) : string := digits_fuel (Z.to_nat (Z.log2 n)) n.

Fixpoint zeroes (k : nat) : string :=
  match k with
  | O => EmptyString
  | S k' => String "0" (zeroes k')
  end.

Section ToFixed.

(** [Number::toString] of the engine, which [toFixed] falls back to
    for magnitudes of at least 10^21. *)
Variable Number_toString : Q -> string.

(** [Number.prototype.toFixed(f)] on a finite number, step by step as
    ECMA-262 gives it: sign, the integer [n] nearest to [x * 10^f]
    (the larger one on a tie), its digits padded with zeroes to
    [f + 1] characters, and a point before the last [f] of them. *)
Definition toFixed (f : nat) (x : Q) : string :=
  let s := if ltb x 0%Q then "-" else "" in
  let x := Qabs x in
  let m :=
    if Qle_bool (inject_Z (10 ^ 21)) x then Number_toString x
    else
      let n := Qfloor (x * inject_Z (10 ^ Z.of_nat f) + (1 # 2))%Q in
      let m := digits n in
      if Nat.eqb f 0 then m
      else
        let k := String.length m in
        let m := if Nat.leb k f then zeroes (f + 1 - k) ++ m else m in
        let k := if Nat.leb k f then (f + 1)%nat else k in
        let a := substring 0 (k - f) m in
        let b := substring (k - f) f m in
        a ++ "." ++ b
  in
  s ++ m.

End ToFixed.

(** The rendering the specification asks for, "the numeric value
    rendered with exactly two decimal digits": the nearest hundredth
    of [x], written as its integer part, a point, and two digits. *)
Definition spec_two_decimals (x : Q) : string :=
  let n := Qfloor (x * 100 + (1 # 2))%Q in
  digits (n / 100) ++ "."
    ++ String (digit ((n / 10) mod 10)) (String (digit (n mod 10)) EmptyString).

End JS.

(** * The component *)

(** An element of [chatHistory]: [{ type: 'text', user, bot }] or
    [{ type: 'image', imageUrl, bot }]. *)
Inductive entry : Type :=
  | TextEntry (user bot : string)
  | ImageEntry (imageUrl bot : string).

(** The object [res.json()] resolves to, with the fields the handlers
    read, each of its documented wire type and possibly missing. *)
Record payload : Type := Payload {
  response : option string;
  prediction : option string;
  error : option string;
  confidence : option Q
}.

(** How [await fetch(...)] followed by [await res.json()] ends:
    [fetch] rejects, or a reply of some HTTP status arrives whose body
    either parses ([Some]) or makes [res.json()] reject ([None]). *)
Inductive outcome : Type :=
  | Rejected
  | Replied (status : Z) (body : option payload).

(** Whether the [try] block is left through [catch]. *)
Definition throws (o : outcome) : bool :=
  match o with
  | Rejected => true
  | Replied _ None => true
  | Replied _ (Some _) => false
  end.

Section App.

Context {File : Type}.

(** [URL.createObjectURL] and the engine's [Number::toString]. *)
Variable createObjectURL : File -> string.
Variable Number_toString : Q -> string.

(** The five [useState] cells. *)
Record state : Type := State {
  message : string;
  image : option File;
  chatHistory : list entry;
  result : string;
  imageResult : string
}.

(** The initial values passed to [useState]. *)
Definition initial : state :=
  {| message := ""; image := None; chatHistory := []; result := "";
     imageResult := "" |}.

Definition setMessage (v : string) (s : state) : state :=
  {| message := v; image := image s; chatHistory := chatHistory s;
     result := result s; imageResult := imageResult s |}.

Definition setImage (v : option File) (s : state) : state :=
  {| message := message s; image := v; chatHistory := chatHistory s;
     result := result s; imageResult := imageResult s |}.

(** [setChatHistory] is only called with an updater function, which
    React applies to the value current at that time. *)
Definition setChatHistory (upd : list entry -> list entry) (s : state)
  : state :=
  {| message := message s; image := image s;
     chatHistory := upd (chatHistory s);
     result := result s; imageResult := imageResult s |}.

Definition setResult (v : string) (s : state) : state :=
  {| message := message s; image := image s; chatHistory := chatHistory s;
     result := v; imageResult := imageResult s |}.

Definition setImageResult (v : string) (s : state) : state :=
  {| message := message s; image := image s; chatHistory := chatHistory s;
     result := result s; imageResult := v |}.

Definition prompts : list string :=
  [ "Red rash on arms"; "Itching and dryness"; "Skin inflammation";
    "Blisters and bumps"; "Swelling and redness" ].

Definition chat_disclaimer : string :=
  "We couldn't confidently predict a disease based on your symptoms.".

Definition image_disclaimer : string :=
  "We couldn't confidently diagnose the skin condition from the image.".

Definition connect_error : string := "Error connecting to the API.".

(** [` (Confidence: ${c.toFixed(2)}%)`] *)
Definition annotation (c : Q) : string :=
  " (Confidence: " ++ JS.toFixed Number_toString 2 c ++ "%)".

(** Text chat response handler. *)
Definition handleChatResponse (data : payload) (s : state) : state :=
  match confidence data with
  | Some c =>
      if negb (JS.truthy_num (Some c)) || JS.ltb c 70 then
        setResult chat_disclaimer s
      else
        setResult (JS.to_string (response data) ++ annotation c) s
  | None => setResult chat_disclaimer s
  end.

(** Image prediction response handler. *)
Definition handleImagePrediction (data : payload) (s : state) : state :=
  match confidence data with
  | Some c =>
      if negb (JS.truthy_num (Some c)) || JS.ltb c 70 then
        setImageResult image_disclaimer s
      else
        setImageResult (JS.to_string (prediction data) ++ annotation c) s
  | None => setImageResult image_disclaimer s
  end.

(** What a handler does to the outside world. *)
Inductive request : Type :=
  | ChatBody (msg : string) (history : list entry)
  | FormBody (file : File).

Inductive effect : Type :=
  | Fetch (url : string) (body : request)
  | Alert (text : string).

Definition catch_entry : entry := TextEntry "Error" connect_error.

(** [handleSendMessage], created in a render that saw the cells [r]
    (the closure's [message] and [chatHistory]), whose request ends
    with [o], and whose updates land on the cells [s]. *)
Definition handleSendMessage (r : state) (o : outcome) (s : state)
  : state * list effect :=
  let s1 :=
    match o with
    | Replied _ (Some data) =>
        match JS.truthy_str (response data) with
        | Some label =>
            setChatHistory
              (fun prevHistory =>
                 (prevHistory ++ [TextEntry (message r) label])%list)
              (handleChatResponse data s)
        | None =>
            match JS.truthy_str (error data) with
            | Some err =>
                setChatHistory
                  (fun prevHistory =>
                     (prevHistory ++ [TextEntry "Error" err])%list) s
            | None => s
            end
        end
    | _ =>
        setChatHistory
          (fun prevHistory => (prevHistory ++ [catch_entry])%list) s
    end in
  (setMessage "" s1,
   [Fetch "http://127.0.0.1:5001/chat" (ChatBody (message r) (chatHistory r))]).

(** [handleImageUpload], with the closure's [image] taken from [r]. *)
Definition handleImageUpload (r : state) (o : outcome) (s : state)
  : state * list effect :=
  match image r with
  | None => (s, [Alert "Please upload an image."])
  | Some img =>
      let localUrl := createObjectURL img in
      let s1 :=
        match o with
        | Replied _ (Some data) =>
            match JS.truthy_str (prediction data) with
            | Some label =>
                setChatHistory
                  (fun prevHistory =>
                     (prevHistory ++ [ImageEntry localUrl label])%list)
                  (handleImagePrediction data s)
            | None => s
            end
        | _ =>
            setChatHistory
              (fun prevHistory => (prevHistory ++ [catch_entry])%list) s
        end in
      (setImage None s1,
       [Fetch "http://127.0.0.1:5001/predict_image" (FormBody img)])
  end.

Definition handlePromptClick (prompt : string) (s : state) : state :=
  setMessage prompt s.

(** The events of a session: the two [onChange] handlers, a click on a
    quick prompt, and the completion of either submit handler. *)
Inductive event : Type :=
  | ChangeMessage (value : string)
  | ChangeImage (file : option File)
  | PromptClick (prompt : string)
  | SendMessage (r : state) (o : outcome)
  | ImageUpload (r : state) (o : outcome).

Definition dispatch (ev : event) (s : state) : state * list effect :=
  match ev with
  | ChangeMessage v => (setMessage v s, [])
  | ChangeImage f => (setImage f s, [])
  | PromptClick p => (handlePromptClick p s, [])
  | SendMessage r o => handleSendMessage r o s
  | ImageUpload r o => handleImageUpload r o s
  end.

(** A session: the events in order, each on the cells the previous
    one left. *)
Fixpoint run (evs : list event) (s : state) : state :=
  match evs with
  | [] => s
  | ev :: evs' => run evs' (fst (dispatch ev s))
  end.

End App.

Arguments state File : clear implicits.
Arguments request File : clear implicits.
Arguments effect File : clear implicits.
Arguments event File : clear implicits.

(** * The view *)

(** [item.bot], which both kinds of entry carry. *)
Definition bot (item : entry) : string :=
  match item with
  | TextEntry _ b => b
  | ImageEntry _ b => b
  end.

(** What a JSX expression of the component evaluates to: an element
    with its key and string props, a text, [false] (which React leaves
    out), or a fragment [<>...</>]. *)
#[warnings="-register-all"]
Inductive vnode : Type :=
  | Element (tag : string) (key : option nat)
            (props : list (string * string)) (children : list vnode)
  | Text (text : string)
  | JsFalse
  | Fragment (children : list vnode).

(** [<p><strong>{caption}</strong> {text}</p>] *)
Definition captioned (caption text : string) : vnode :=
  Element "p" None []
    [Element "strong" None [] [Text caption]; Text " "; Text text].

(** [{v && <div className="result-message">{v}</div>}]: an empty
    verdict is falsy and is the value of the expression itself. *)
Definition verdictBanner (v : string) : vnode :=
  match v with
  | EmptyString => Text ""
  | _ => Element "div" None [("className", "result-message")] [Text v]
  end.

(** The callback of [chatHistory.map]: one [chat-message] per entry,
    keyed by its index, whose two children are the guarded fragments
    for [item.type === 'text'] and [item.type === 'image']. *)
Definition chatMessage (index : nat) (item : entry) : vnode :=
  Element "div" (Some index) [("className", "chat-message")]
    [ match item with
      | TextEntry user b =>
          Fragment [captioned "User:" user; captioned "DermaAI:" b]
      | ImageEntry _ _ => JsFalse
      end;
      match item with
      | ImageEntry imageUrl b =>
          Fragment
            [ Element "p" None []
                [Element "strong" None [] [Text "User uploaded image:"]];
              Element "img" None
                [ ("src", imageUrl); ("alt", "Uploaded skin condition");
                  ("className", "uploaded-image") ] [];
              captioned "DermaAI:" b ]
      | TextEntry _ _ => JsFalse
      end ].

(** [<div className="chat-history">{chatHistory.map(...)}</div>] *)
Definition chatHistoryView (history : list entry) : vnode :=
  Element "div" None [("className", "chat-history")]
    (imap chatMessage history).

(** ** Concrete payloads and collaborators *)

(** [{ response: "Eczema", confidence: 85.5 }] *)
Definition eczema : payload :=
  {| response := Some "Eczema"; prediction := None; error := None;
     confidence := Some 85.5%Q |}.

(** [{ prediction: "Psoriasis", confidence: 40 }] *)
Definition psoriasis : payload :=
  {| response := None; prediction := Some "Psoriasis"; error := None;
     confidence := Some 40%Q |}.

(** [{ error: "" }] *)
Definition empty_error : payload :=
  {| response := None; prediction := None; error := Some "";
     confidence := None |}.

(** [{ prediction: "", confidence: 90 }] *)
Definition empty_prediction : payload :=
  {| response := None; prediction := Some ""; error := None;
     confidence := Some 90%Q |}.

(** [{ error: "KeyError: 'message'" }], as a failing server may send
    it with status 500. *)
Definition server_fault : payload :=
  {| response := None; prediction := None;
     error := Some "KeyError: 'message'"; confidence := None |}.

(** [{}] *)
Definition empty_object : payload :=
  {| response := None; prediction := None; error := None;
     confidence := None |}.

(** A browser for concrete runs: files are named by strings, object
    URLs are [blob:] followed by the name, and no number reaches the
    exponent notation of [Number::toString]. *)
Definition blob_url (f : string) : string := "blob:" ++ f.
Definition exponent_unused (x : Q) : string := "".

(** The cells after the user typed a quick prompt and chose a file. *)
Definition ready : state string :=
  {| message := "Red rash on arms"; image := Some "arm.png";
     chatHistory := [TextEntry "Itching and dryness" "Eczema"];
     result := "Eczema (Confidence: 91.00%)"; imageResult := "" |}.

(** * Checks on concrete inputs *)

Example toFixed_85_5 ts : JS.toFixed ts 2 85.5%Q = "85.50".
Proof. reflexivity. Qed.

Example toFixed_70 ts : JS.toFixed ts 2 70%Q = "70.00".
Proof. reflexivity. Qed.

Example toFixed_small ts : JS.toFixed ts 2 (1 # 200)%Q = "0.01".
Proof. reflexivity. Qed.

Example toFixed_neg ts : JS.toFixed ts 2 (- (1 # 1000))%Q = "-0.00".
Proof. reflexivity. Qed.

Example toFixed_100 ts : JS.toFixed ts 2 100%Q = "100.00".
Proof. reflexivity. Qed.

(** * Decimal rendering *)

Module JSFacts.
Import JS.

Lemma digits_fuel_irrel (f1 : nat) :
  forall (f2 : nat) (n : Z),
    (0 <= n)%Z -> (Z.log2 n <= Z.of_nat f1)%Z -> (Z.log2 n <= Z.of_nat f2)%Z ->
    digits_fuel f1 n = digits_fuel f2 n.
Proof.
  induction f1 as [|f1 IH]; intros f2 n Hn H1 H2.
  - assert (n < 10)%Z as Hlt.
    { destruct (Z.eq_dec n 0%Z) as [->|]; [lia|].
      assert (n < 2 ^ 1)%Z by (apply Z.log2_lt_pow2; lia). lia. }
    destruct f2; simpl; [reflexivity|].
    apply Z.ltb_lt in Hlt. now rewrite Hlt.
  - simpl. destruct (n <? 10)%Z eqn:E.
    + destruct f2; simpl; [reflexivity|]. now rewrite E.
    + apply Z.ltb_ge in E.
      assert (8 <= n)%Z as H8 by lia.
      apply Z.log2_le_mono in H8. change (Z.log2 8) with 3%Z in H8.
      destruct f2 as [|f2]; [lia|]. simpl.
      apply Z.ltb_ge in E as E'. rewrite E'.
      assert (forall k : nat, (Z.log2 n <= Z.of_nat (S k))%Z ->
                              (Z.log2 (n / 10) <= Z.of_nat k)%Z) as Hdiv.
      { intros k Hk.
        assert (0 < n / 10)%Z by (apply Z.div_str_pos; lia).
        assert (n < 2 ^ (Z.of_nat (S k) + 1))%Z as Hp
            by (apply Z.log2_lt_pow2; lia).
        replace (Z.of_nat (S k) + 1)%Z with (1 + (Z.of_nat k + 1))%Z in Hp
          by lia.
        rewrite Z.pow_add_r in Hp by lia. change (2 ^ 1)%Z with 2%Z in Hp.
        assert (n / 10 < 2 ^ (Z.of_nat k + 1))%Z as Hq.
        { apply Z.div_lt_upper_bound; lia. }
        apply Z.log2_lt_pow2 in Hq; lia. }
      f_equal. apply IH; [apply Z.div_pos; lia | now apply Hdiv ..].
Qed.

Lemma digits_lt10 (n : Z) :
  (0 <= n < 10)%Z -> digits n = String (digit n) EmptyString.
Proof.
  intros [H0 H10]. unfold digits.
  destruct (Z.to_nat (Z.log2 n)); simpl; [reflexivity|].
  apply Z.ltb_lt in H10. now rewrite H10.
Qed.

Lemma digits_unfold (n : Z) :
  (10 <= n)%Z ->
  digits n = digits (n / 10) ++ String (digit (n mod 10)) EmptyString.
Proof.
  intros H10. unfold digits.
  assert (8 <= n)%Z as H8 by lia.
  apply Z.log2_le_mono in H8. change (Z.log2 8) with 3%Z in H8.
  destruct (Z.to_nat (Z.log2 n)) as [|k] eqn:Ek; [lia|]. simpl.
  apply Z.ltb_ge in H10 as E. rewrite E. f_equal.
  assert (0 <= n / 10)%Z by (apply Z.div_pos; lia).
  assert (Z.log2 (n / 10) <= Z.log2 n - 1)%Z.
  { assert (0 < n / 10)%Z by (apply Z.div_str_pos; lia).
    assert (n < 2 ^ (1 + Z.log2 n))%Z as Hp.
    { replace (1 + Z.log2 n)%Z with (Z.succ (Z.log2 n)) by lia.
      apply Z.log2_spec. lia. }
    rewrite Z.pow_add_r in Hp by lia. change (2 ^ 1)%Z with 2%Z in Hp.
    assert (n / 10 < 2 ^ Z.log2 n)%Z as Hq
        by (apply Z.div_lt_upper_bound; lia).
    apply Z.log2_lt_pow2 in Hq; lia. }
  apply digits_fuel_irrel; lia.
Qed.

Lemma digits_nonempty (n : Z) :
  (0 <= n)%Z -> (1 <= String.length (digits n))%nat.
Proof.
  intros Hn. destruct (Z_lt_le_dec n 10%Z).
  - rewrite digits_lt10 by lia. simpl. lia.
  - rewrite digits_unfold by lia.
    generalize (digits (n / 10)). intros a.
    induction a; simpl; lia.
Qed.

Lemma length_append (a b : string) :
  String.length (a ++ b) = (String.length a + String.length b)%nat.
Proof. induction a; simpl; congruence. Qed.

Lemma append_assoc (a b c : string) : (a ++ b) ++ c = a ++ (b ++ c).
Proof. induction a; simpl; congruence. Qed.

Lemma substring_all (a : string) : substring 0 (String.length a) a = a.
Proof. induction a; simpl; congruence. Qed.

Lemma substring_head (a b : string) :
  substring 0 (String.length a) (a ++ b) = a.
Proof.
  induction a as [|c a IH]; simpl.
  - now destruct b.
  - now rewrite IH.
Qed.

Lemma substring_tail (a b : string) :
  substring (String.length a) (String.length b) (a ++ b) = b.
Proof.
  induction a as [|c a IH]; simpl; [apply substring_all | exact IH].
Qed.

Lemma Qabs_nonneg_eq (x : Q) : (0 <= x)%Q -> Qabs x = x.
Proof.
  destruct x as [n d]. unfold Qle, Qabs. simpl. intros H.
  f_equal. apply Z.abs_eq. lia.
Qed.

(** Below 10^21 and for two fraction digits, [toFixed] is the
    two-decimal rendering. *)
Lemma toFixed_two_decimals (ts : Q -> string) (x : Q) :
  (0 <= x)%Q -> (x < inject_Z (10 ^ 21))%Q ->
  toFixed ts 2 x = spec_two_decimals x.
Proof.
  intros H0 Hbig. unfold toFixed, spec_two_decimals, ltb.
  rewrite (Qabs_nonneg_eq x H0).
  rewrite (proj2 (Qle_bool_iff 0 x) H0). simpl negb. cbv iota.
  destruct (Qle_bool (inject_Z (10 ^ 21)) x) eqn:E.
  { apply Qle_bool_iff in E. exfalso. apply (Qlt_not_le _ _ Hbig E). }
  change (inject_Z (10 ^ Z.of_nat 2)) with 100%Q.
  set (n := Qfloor (x * 100 + (1 # 2))%Q).
  assert (0 <= n)%Z as Hn.
  { unfold n. change 0%Z with (Qfloor 0). apply Qfloor_resp_le.
    apply (Qle_trans _ (0 * 100 + 0)%Q); [easy|].
    apply Qplus_le_compat; [apply Qmult_le_compat_r|]; easy. }
  clearbody n. change (2 =? 0)%nat with false. cbv iota. simpl "++".
  destruct (Z_lt_le_dec n 10%Z) as [Hlt|Hge].
  - rewrite (digits_lt10 n) by lia.
    rewrite !Z.div_small by lia. rewrite (Z.mod_small n 10) by lia.
    reflexivity.
  - rewrite (digits_unfold n Hge).
    destruct (Z_lt_le_dec n 100%Z) as [Hlt|Hge2].
    + assert (0 <= n / 10 < 10)%Z as Hq.
      { split; [apply Z.div_pos; lia | apply Z.div_lt_upper_bound; lia]. }
      rewrite (digits_lt10 (n / 10) Hq).
      rewrite (Z.div_small n 100) by lia.
      rewrite (Z.mod_small (n / 10) 10) by lia.
      reflexivity.
    + assert (10 <= n / 10)%Z as Hq by (apply Z.div_le_lower_bound; lia).
      rewrite (digits_unfold (n / 10) Hq).
      rewrite Z.div_div by lia. change (10 * 10)%Z with 100%Z.
      pose proof (digits_nonempty (n / 100)) as Hlen.
      assert (0 <= n / 100)%Z as Hpos by (apply Z.div_pos; lia).
      specialize (Hlen Hpos). revert Hlen.
      generalize (digits (n / 100)). intros a Ha.
      set (d1 := digit ((n / 10) mod 10)). set (d0 := digit (n mod 10)).
      rewrite append_assoc.
      change (String d1 "" ++ String d0 "") with (String d1 (String d0 "")).
      set (b := String d1 (String d0 "")).
      rewrite length_append. change (String.length b) with 2%nat.
      replace (String.length a + 2 <=? 2)%nat with false
        by (symmetry; apply Nat.leb_gt; lia).
      replace (String.length a + 2 - 2)%nat with (String.length a) by lia.
      rewrite substring_head.
      change 2%nat with (String.length b) at 1.
      now rewrite substring_tail.
Qed.

End JSFacts.

(** * The confidence handlers *)

Section Interpreter.

Context {File : Type}.
Variable Number_toString : Q -> string.

(** The guard [!c || c < 70] on a present number is [c < 70]. *)
Lemma low_guard (c : Q) :
  negb (JS.truthy_num (Some c)) || JS.ltb c 70 = true <-> (c < 70)%Q.
Proof.
  unfold JS.truthy_num, JS.ltb. rewrite negb_involutive, orb_true_iff.
  rewrite Qeq_bool_iff, negb_true_iff. split.
  - intros [Hz | Hlt].
    + rewrite Hz. reflexivity.
    + apply Qnot_le_lt. intros Hle. apply Qle_bool_iff in Hle. congruence.
  - intros Hlt. right. destruct (Qle_bool 70 c) eqn:E; [|reflexivity].
    apply Qle_bool_iff in E. exfalso. exact (Qlt_not_le _ _ Hlt E).
Qed.

Lemma snoc_inj (a b : string) (c d : ascii) :
  a ++ String c "" = b ++ String d "" -> c = d.
Proof.
  revert b. induction a as [|x a IH]; intros [|y b]; simpl; intros H.
  - congruence.
  - destruct b; discriminate.
  - destruct a; discriminate.
  - injection H as _ H. eauto.
Qed.

(** A label with its annotation ends in a parenthesis, a disclaimer in
    a full stop. *)
Lemma annotated_not_disclaimer (l : string) (c : Q) :
  l ++ annotation Number_toString c <> chat_disclaimer /\
  l ++ annotation Number_toString c <> image_disclaimer.
Proof.
  unfold annotation. generalize (JS.toFixed Number_toString 2 c).
  intros t.
  assert (l ++ " (Confidence: " ++ t ++ "%)"
          = (l ++ " (Confidence: " ++ t ++ "%") ++ String ")" "") as ->.
  { rewrite !JSFacts.append_assoc. reflexivity. }
  split; intros H.
  - change chat_disclaimer with
      ("We couldn't confidently predict a disease based on your symptoms"
         ++ String "." "") in H.
    apply snoc_inj in H. discriminate.
  - change image_disclaimer with
      ("We couldn't confidently diagnose the skin condition from the image"
         ++ String "." "") in H.
    apply snoc_inj in H. discriminate.
Qed.

(** C1: on either channel the verdict is the channel's low-confidence
    disclaimer exactly when the response has no confidence or one
    strictly below 70; at 70 and above it is not the disclaimer. *)
Theorem disclaimer_iff_low_confidence (data : payload) (s : state File) :
  let low := match confidence data with
             | Some c => (c < 70)%Q
             | None => True
             end in
  (result (handleChatResponse Number_toString data s) = chat_disclaimer
   <-> low) /\
  (imageResult (handleImagePrediction Number_toString data s)
   = image_disclaimer <-> low).
Proof.
  unfold handleChatResponse, handleImagePrediction.
  destruct (confidence data) as [c|]; cbv zeta; [|simpl; tauto].
  pose proof (low_guard c) as G.
  destruct (negb (JS.truthy_num (Some c)) || JS.ltb c 70); simpl.
  - assert (c < 70)%Q by now apply G. split; split; auto.
  - destruct (annotated_not_disclaimer (JS.to_string (response data)) c).
    destruct (annotated_not_disclaimer (JS.to_string (prediction data)) c).
    split; split; intros Hl; try contradiction;
      apply G in Hl; discriminate.
Qed.

(** C2: with a confidence of at least 70 the verdict is the label, a
    space, and ["(Confidence: "], the confidence with exactly two
    decimal digits, ["%)"].  The bound 10^21 is where [toFixed] leaves
    fixed notation; the confidence of a response is at most 100. *)
Theorem verdict_of_high_confidence
    (data : payload) (s : state File) (c : Q) :
  confidence data = Some c ->
  (70 <= c)%Q ->
  (c < inject_Z (10 ^ 21))%Q ->
  (forall label, response data = Some label ->
     result (handleChatResponse Number_toString data s)
     = label ++ " (Confidence: " ++ JS.spec_two_decimals c ++ "%)") /\
  (forall label, prediction data = Some label ->
     imageResult (handleImagePrediction Number_toString data s)
     = label ++ " (Confidence: " ++ JS.spec_two_decimals c ++ "%)").
Proof.
  intros Hc H70 Hbig.
  unfold handleChatResponse, handleImagePrediction.
  rewrite Hc.
  pose proof (low_guard c) as G.
  destruct (negb (JS.truthy_num (Some c)) || JS.ltb c 70).
  { exfalso. apply (Qlt_not_le c 70); [now apply G | exact H70]. }
  unfold annotation.
  rewrite JSFacts.toFixed_two_decimals;
    [| apply Qle_trans with 70%Q; [easy | exact H70] | exact Hbig].
  split; intros label ->; reflexivity.
Qed.

End Interpreter.

(** * The session *)

Section Session.

Context {File : Type}.
Variable createObjectURL : File -> string.
Variable Number_toString : Q -> string.

(** The confidence handlers touch their own verdict cell only. *)
Lemma handleChatResponse_frame (data : payload) (s : state File) :
  let s' := handleChatResponse Number_toString data s in
  message s' = message s /\ image s' = image s /\
  chatHistory s' = chatHistory s /\ imageResult s' = imageResult s.
Proof.
  unfold handleChatResponse.
  destruct (confidence data) as [c|]; [|now simpl].
  now destruct (negb (JS.truthy_num (Some c)) || JS.ltb c 70).
Qed.

Lemma handleImagePrediction_frame (data : payload) (s : state File) :
  let s' := handleImagePrediction Number_toString data s in
  message s' = message s /\ image s' = image s /\
  chatHistory s' = chatHistory s /\ result s' = result s.
Proof.
  unfold handleImagePrediction.
  destruct (confidence data) as [c|]; [|now simpl].
  now destruct (negb (JS.truthy_num (Some c)) || JS.ltb c 70).
Qed.

Lemma truthy_str_Some (v : option string) (l : string) :
  JS.truthy_str v = Some l <-> v = Some l /\ l <> "".
Proof.
  destruct v as [[|a t]|]; simpl; split;
    try (intros [? ?]); try intros ?; try split; congruence.
Qed.

Ltac unchanged :=
  exists []; rewrite app_nil_r; split; [reflexivity | simpl; lia].
Ltac one_more :=
  eexists [_]; split; [reflexivity | simpl; lia].

(** Every event leaves the transcript as it was or with one more
    entry at its end. *)
Lemma dispatch_appends (ev : event File) (s : state File) :
  exists new : list entry,
    chatHistory (fst (dispatch createObjectURL Number_toString ev s))
    = (chatHistory s ++ new)%list /\ length new <= 1.
Proof.
  destruct ev as [v|f|p|r o|r o]; simpl.
  - unchanged.
  - unchanged.
  - unchanged.
  - unfold handleSendMessage. simpl.
    destruct o as [|status [data|]]; simpl; try (one_more).
    destruct (JS.truthy_str (response data)) as [label|]; simpl.
    + destruct (handleChatResponse_frame data s) as (_ & _ & -> & _).
      one_more.
    + destruct (JS.truthy_str (error data)) as [err|]; simpl.
      * one_more.
      * unchanged.
  - unfold handleImageUpload.
    destruct (image r) as [img|]; simpl;
      [| unchanged].
    destruct o as [|status [data|]]; simpl; try (one_more).
    destruct (JS.truthy_str (prediction data)) as [label|]; simpl.
    + destruct (handleImagePrediction_frame data s) as (_ & _ & -> & _).
      one_more.
    + unchanged.
Qed.

Lemma run_appends (evs : list (event File)) :
  forall s : state File,
  exists added : list entry,
    chatHistory (run createObjectURL Number_toString evs s)
    = (chatHistory s ++ added)%list /\ length added <= length evs.
Proof.
  induction evs as [|ev evs IH]; intros s; simpl.
  - unchanged.
  - destruct (dispatch_appends ev s) as (new & Hnew & Hlen).
    destruct (IH (fst (dispatch createObjectURL Number_toString ev s)))
      as (added & Hadd & Hlen').
    exists (new ++ added)%list. rewrite Hadd, Hnew, <- app_assoc.
    split; [reflexivity|]. rewrite length_app. lia.
Qed.

(** C3: the transcript is append-only.  Whatever the events of a
    session and their outcomes, the transcript only grows, every entry
    stays at its index, and a single event adds at most one entry, at
    the end. *)
Theorem transcript_append_only (evs : list (event File)) (s : state File) :
  let s' := run createObjectURL Number_toString evs s in
  length (chatHistory s) <= length (chatHistory s') /\
  length (chatHistory s') <= length (chatHistory s) + length evs /\
  (forall (i : nat) (e : entry),
     chatHistory s !! i = Some e -> chatHistory s' !! i = Some e) /\
  (forall ev : event File,
     exists new : list entry,
       chatHistory (fst (dispatch createObjectURL Number_toString ev s))
       = (chatHistory s ++ new)%list /\ length new <= 1).
Proof.
  cbv zeta. destruct (run_appends evs s) as (added & -> & Hlen).
  rewrite length_app. repeat split; try lia.
  - intros i e Hi. now apply lookup_app_l_Some.
  - intros ev. apply dispatch_appends.
Qed.

(** A click on a quick prompt copies it into the text input, leaves
    the other cells alone and has no effect outside. *)
Lemma prompt_click_fills_input (prompt : string) (s : state File) :
  dispatch createObjectURL Number_toString (PromptClick prompt) s
  = (setMessage prompt s, []).
Proof. reflexivity. Qed.

(** ** The text channel *)

(** C4: submitting ["Red rash on arms"] when the service answers
    [{response: "Eczema", confidence: 85.5}] appends the one Text
    entry of that exchange, sets the text verdict to
    ["Eczema (Confidence: 85.50%)"], and empties the text input. *)
Theorem send_red_rash_eczema (r s : state File) (status : Z) :
  message r = "Red rash on arms" ->
  let s' := fst (handleSendMessage Number_toString r
                   (Replied status (Some eczema)) s) in
  chatHistory s'
  = (chatHistory s ++ [TextEntry "Red rash on arms" "Eczema"])%list /\
  result s' = "Eczema (Confidence: 85.50%)" /\
  message s' = "".
Proof.
  intros Hm. unfold handleSendMessage. simpl. rewrite Hm. auto.
Qed.

(** C5, as the code has it: when the request of a text submit fails
    in that [fetch] rejects or the body does not parse, one Text entry
    with user ["Error"] and the fixed connectivity message is
    appended, the text verdict stays, and the text input is emptied.
    A reply whose body parses is handled by that body, whatever its
    status. *)
Theorem send_transport_failure (r s : state File) (o : outcome) :
  throws o = true ->
  let failure := TextEntry "Error" "Error connecting to the API." in
  let s' := fst (handleSendMessage Number_toString r o s) in
  chatHistory s' = (chatHistory s ++ [failure])%list /\
  result s' = result s /\
  message s' = "".
Proof.
  intros Ht. unfold handleSendMessage.
  destruct o as [|status [data|]]; simpl in *; auto; discriminate.
Qed.

(** C6, as the code has it: a response without a label whose error
    message is not empty appends one Text entry with user ["Error"]
    and that message as bot text, and the text verdict stays. *)
Theorem send_service_error
    (r s : state File) (status : Z) (data : payload) (err : string) :
  response data = None ->
  error data = Some err ->
  err <> "" ->
  let s' := fst (handleSendMessage Number_toString r
                   (Replied status (Some data)) s) in
  chatHistory s' = (chatHistory s ++ [TextEntry "Error" err])%list /\
  result s' = result s.
Proof.
  intros Hl He Hne. unfold handleSendMessage. simpl.
  rewrite Hl. simpl.
  rewrite (proj2 (truthy_str_Some (error data) err) (conj He Hne)).
  auto.
Qed.

(** ** The image channel *)

(** C7: with no image selected, an upload sends no request, changes
    no cell (so no entry is appended and the image verdict stays), and
    alerts the user to select a file. *)
Theorem upload_without_image (r s : state File) (o : outcome) :
  image r = None ->
  let done := handleImageUpload createObjectURL Number_toString r o s in
  fst done = s /\
  snd done = [Alert "Please upload an image."] /\
  (forall url body, ~ In (Fetch url body) (snd done)).
Proof.
  intros Hi. unfold handleImageUpload. rewrite Hi.
  repeat split. intros url body [H|[]]. discriminate.
Qed.

(** C8, as the code has it: a response whose prediction is not empty
    runs the image confidence handler on the cells and appends one
    Image entry with the object URL of the file and the prediction as
    bot text; for [{prediction: "Psoriasis", confidence: 40}] the
    image verdict is the image disclaimer. *)
Theorem upload_prediction
    (r s : state File) (status : Z) (data : payload)
    (img : File) (label : string) :
  image r = Some img ->
  prediction data = Some label ->
  label <> "" ->
  let s' := fst (handleImageUpload createObjectURL Number_toString r
                   (Replied status (Some data)) s) in
  chatHistory s'
  = (chatHistory s ++ [ImageEntry (createObjectURL img) label])%list /\
  imageResult s'
  = imageResult (handleImagePrediction Number_toString data s) /\
  (data = psoriasis ->
   label = "Psoriasis" /\ imageResult s' = image_disclaimer).
Proof.
  intros Hi Hp Hne. unfold handleImageUpload. rewrite Hi. simpl.
  rewrite (proj2 (truthy_str_Some (prediction data) label) (conj Hp Hne)).
  simpl.
  destruct (handleImagePrediction_frame data s) as (_ & _ & -> & _).
  split; [reflexivity|]. split; [reflexivity|].
  intros ->. simpl in Hp. split; [congruence | reflexivity].
Qed.

(** ** Failures *)

(** C9, as the code has it: when [fetch] rejects or the body does not
    parse, either channel appends the Text entry with user ["Error"]
    and the fixed connectivity message; the HTTP status is never
    looked at, so a reply is handled by its body alone. *)
Theorem transport_failure_entry (r s : state File) (o : outcome) :
  throws o = true ->
  let failure := TextEntry "Error" "Error connecting to the API." in
  let send := handleSendMessage Number_toString r in
  let upload := handleImageUpload createObjectURL Number_toString r in
  chatHistory (fst (send o s)) = (chatHistory s ++ [failure])%list /\
  (forall img, image r = Some img ->
     chatHistory (fst (upload o s)) = (chatHistory s ++ [failure])%list) /\
  (forall (status status' : Z) (body : option payload),
     send (Replied status body) s = send (Replied status' body) s /\
     upload (Replied status body) s = upload (Replied status' body) s).
Proof.
  intros Ht. repeat split.
  - destruct o as [|status [data|]]; simpl in *; auto; discriminate.
  - intros img Hi. unfold handleImageUpload. rewrite Hi.
    destruct o as [|status [data|]]; simpl in *; auto; discriminate.
Qed.

(** C10: a reply whose body lacks the label field (an image reply
    without [prediction], a text reply with neither [response] nor
    [error]) appends nothing and changes no verdict, and the pending
    input of the channel is cleared all the same. *)
Theorem reply_without_label
    (r s : state File) (status : Z) (data : payload) :
  (forall img, image r = Some img -> prediction data = None ->
     let s' := fst (handleImageUpload createObjectURL Number_toString r
                      (Replied status (Some data)) s) in
     chatHistory s' = chatHistory s /\ result s' = result s /\
     imageResult s' = imageResult s /\ image s' = None) /\
  (response data = None -> error data = None ->
     let s' := fst (handleSendMessage Number_toString r
                      (Replied status (Some data)) s) in
     chatHistory s' = chatHistory s /\ result s' = result s /\
     imageResult s' = imageResult s /\ message s' = "").
Proof.
  split.
  - intros img Hi Hp. unfold handleImageUpload. rewrite Hi. simpl.
    rewrite Hp. simpl. auto.
  - intros Hl He. unfold handleSendMessage. simpl.
    rewrite Hl, He. simpl. auto.
Qed.

End Session.

(** * Concrete sessions *)

Example boundary_70_passes :
  result (handleChatResponse exponent_unused
            {| response := Some "Acne"; prediction := None; error := None;
               confidence := Some 70%Q |} ready)
  = "Acne (Confidence: 70.00%)".
Proof. reflexivity. Qed.

Example just_below_70_fails :
  result (handleChatResponse exponent_unused
            {| response := Some "Acne"; prediction := None; error := None;
               confidence := Some 69.999%Q |} ready)
  = chat_disclaimer.
Proof. reflexivity. Qed.

Example zero_confidence_fails :
  imageResult (handleImagePrediction exponent_unused
                 {| response := None; prediction := Some "Acne";
                    error := None; confidence := Some 0%Q |} ready)
  = image_disclaimer.
Proof. reflexivity. Qed.

Example session_of_two_submits :
  run blob_url exponent_unused
    [ SendMessage ready (Replied 200 (Some eczema));
      ChangeImage (Some "leg.png");
      ImageUpload ready (Replied 200 (Some psoriasis)) ] ready
  = {| message := ""; image := None;
       chatHistory := [ TextEntry "Itching and dryness" "Eczema";
                        TextEntry "Red rash on arms" "Eczema";
                        ImageEntry "blob:arm.png" "Psoriasis" ];
       result := "Eczema (Confidence: 85.50%)";
       imageResult := image_disclaimer |}.
Proof. reflexivity. Qed.

(** The high-confidence verdict at the example of the specification. *)
Lemma verdict_of_high_confidence_witness :
  result (handleChatResponse exponent_unused eczema ready)
  = "Eczema (Confidence: 85.50%)".
Proof.
  assert (70 <= 85.5)%Q as H70 by (vm_compute; discriminate).
  assert (85.5 < inject_Z (10 ^ 21))%Q as Hbig by reflexivity.
  exact (proj1 (verdict_of_high_confidence exponent_unused eczema ready
                  85.5%Q eq_refl H70 Hbig) "Eczema" eq_refl).
Defined.

(** A session of three events on [ready] keeps its first entry. *)
Lemma transcript_append_only_witness :
  chatHistory
    (run blob_url exponent_unused
       [ SendMessage ready Rejected;
         ImageUpload ready (Replied 200 (Some psoriasis));
         SendMessage ready (Replied 200 (Some empty_object)) ] ready)
    !! 0%nat
  = Some (TextEntry "Itching and dryness" "Eczema").
Proof.
  refine (proj1 (proj2 (proj2
            (transcript_append_only blob_url exponent_unused
               [ SendMessage ready Rejected;
                 ImageUpload ready (Replied 200 (Some psoriasis));
                 SendMessage ready (Replied 200 (Some empty_object)) ]
               ready))) 0%nat _ _).
  reflexivity.
Defined.

Lemma send_red_rash_eczema_witness :
  let s' := fst (handleSendMessage exponent_unused ready
                   (Replied 200 (Some eczema)) initial) in
  chatHistory s' = [TextEntry "Red rash on arms" "Eczema"] /\
  result s' = "Eczema (Confidence: 85.50%)" /\
  message s' = "".
Proof.
  exact (send_red_rash_eczema exponent_unused ready initial 200 eq_refl).
Defined.

Lemma send_transport_failure_witness :
  let s' := fst (handleSendMessage exponent_unused ready
                   (Replied 502 None) ready) in
  chatHistory s'
  = [ TextEntry "Itching and dryness" "Eczema";
      TextEntry "Error" "Error connecting to the API." ] /\
  result s' = "Eczema (Confidence: 91.00%)" /\
  message s' = "".
Proof.
  exact (send_transport_failure exponent_unused ready ready
           (Replied 502 None) eq_refl).
Defined.

(** C5 fails for a reply of status 500 whose body parses: the entry
    is the one the body asks for, not the connectivity entry, and a
    body with a label overwrites the text verdict. *)
Lemma send_status_500_follows_body :
  let failure := TextEntry "Error" "Error connecting to the API." in
  let a := fst (handleSendMessage exponent_unused ready
                  (Replied 500 (Some server_fault)) ready) in
  let b := fst (handleSendMessage exponent_unused ready
                  (Replied 500 (Some eczema)) ready) in
  chatHistory a
  = [ TextEntry "Itching and dryness" "Eczema";
      TextEntry "Error" "KeyError: 'message'" ] /\
  chatHistory a <> (chatHistory ready ++ [failure])%list /\
  chatHistory b <> (chatHistory ready ++ [failure])%list /\
  result b = "Eczema (Confidence: 85.50%)" /\
  result b <> result ready.
Proof.
  repeat split; try reflexivity; intros H; vm_compute in H; discriminate.
Qed.

(** C6 fails for an error message that is the empty string: nothing
    is appended. *)
Lemma empty_error_appends_nothing :
  response empty_error = None /\
  error empty_error = Some "" /\
  let s' := fst (handleSendMessage exponent_unused ready
                   (Replied 200 (Some empty_error)) ready) in
  chatHistory s' = chatHistory ready /\
  chatHistory s' <> (chatHistory ready ++ [TextEntry "Error" ""])%list.
Proof. repeat split. discriminate. Qed.

Lemma send_service_error_witness :
  let s' := fst (handleSendMessage exponent_unused ready
                   (Replied 500 (Some server_fault)) ready) in
  chatHistory s'
  = [ TextEntry "Itching and dryness" "Eczema";
      TextEntry "Error" "KeyError: 'message'" ] /\
  result s' = "Eczema (Confidence: 91.00%)".
Proof.
  assert ("KeyError: 'message'" <> "") as Hne by discriminate.
  exact (send_service_error exponent_unused ready ready 500 server_fault
           "KeyError: 'message'" eq_refl eq_refl Hne).
Defined.

Lemma upload_without_image_witness :
  let done := handleImageUpload blob_url exponent_unused
                (setImage None ready) (Replied 200 (Some psoriasis)) ready in
  fst done = ready /\
  snd done = [Alert "Please upload an image."] /\
  (forall url body, ~ In (Fetch url body) (snd done)).
Proof.
  exact (upload_without_image blob_url exponent_unused
           (setImage None ready) ready (Replied 200 (Some psoriasis))
           eq_refl).
Defined.

(** C8 fails for a prediction that is the empty string: nothing is
    appended and the image verdict is not set. *)
Lemma empty_prediction_appends_nothing :
  image ready = Some "arm.png" /\
  prediction empty_prediction = Some "" /\
  let s' := fst (handleImageUpload blob_url exponent_unused ready
                   (Replied 200 (Some empty_prediction)) ready) in
  chatHistory s' = chatHistory ready /\
  imageResult s' = "" /\
  imageResult (handleImagePrediction exponent_unused empty_prediction ready)
  = " (Confidence: 90.00%)".
Proof. repeat split. Qed.

Lemma upload_prediction_witness :
  let s' := fst (handleImageUpload blob_url exponent_unused ready
                   (Replied 200 (Some psoriasis)) ready) in
  chatHistory s'
  = [ TextEntry "Itching and dryness" "Eczema";
      ImageEntry "blob:arm.png" "Psoriasis" ] /\
  imageResult s' = image_disclaimer.
Proof.
  assert ("Psoriasis" <> "") as Hne by discriminate.
  pose proof (upload_prediction blob_url exponent_unused ready ready 200
                psoriasis "arm.png" "Psoriasis" eq_refl eq_refl Hne)
    as (H1 & _ & H3).
  split; [exact H1 | exact (proj2 (H3 eq_refl))].
Defined.

(** C9 fails for a reply of status 500 with a JSON body: the text
    channel shows the service's own message, the image channel shows
    nothing. *)
Lemma status_500_is_not_a_failure :
  let o := Replied 500 (Some server_fault) in
  chatHistory (fst (handleSendMessage exponent_unused ready o ready))
  = [ TextEntry "Itching and dryness" "Eczema";
      TextEntry "Error" "KeyError: 'message'" ] /\
  chatHistory (fst (handleImageUpload blob_url exponent_unused ready o ready))
  = [ TextEntry "Itching and dryness" "Eczema" ].
Proof. split; reflexivity. Qed.

Lemma transport_failure_entry_witness :
  chatHistory (fst (handleImageUpload blob_url exponent_unused ready
                      Rejected ready))
  = [ TextEntry "Itching and dryness" "Eczema";
      TextEntry "Error" "Error connecting to the API." ].
Proof.
  exact (proj1 (proj2 (transport_failure_entry blob_url exponent_unused
                         ready ready Rejected eq_refl))
           "arm.png" eq_refl).
Defined.

Lemma reply_without_label_witness :
  let s' := fst (handleImageUpload blob_url exponent_unused ready
                   (Replied 200 (Some empty_object)) ready) in
  chatHistory s' = chatHistory ready /\ result s' = result ready /\
  imageResult s' = imageResult ready /\ image s' = None.
Proof.
  exact (proj1 (reply_without_label blob_url exponent_unused ready ready
                  200 empty_object) "arm.png" eq_refl eq_refl).
Defined.

(** * Both channels on one set of cells *)

Section Channels.

Context {File : Type}.
Variable createObjectURL : File -> string.
Variable Number_toString : Q -> string.

Local Abbreviation send := (handleSendMessage (File := File) Number_toString).
Local Abbreviation upload := (handleImageUpload createObjectURL Number_toString).

(** Either confidence handler stores a value that does not depend on
    the cells it is applied to. *)
Lemma handleChatResponse_const (data : payload) :
  exists v : string,
    v <> "" /\
    forall s : state File,
      handleChatResponse Number_toString data s = setResult v s.
Proof.
  unfold handleChatResponse.
  destruct (confidence data) as [c|];
    [destruct (negb (JS.truthy_num (Some c)) || JS.ltb c 70)|].
  - exists chat_disclaimer. split; [discriminate | reflexivity].
  - eexists. split; [|reflexivity]. unfold annotation.
    destruct (JS.to_string (response data)); discriminate.
  - exists chat_disclaimer. split; [discriminate | reflexivity].
Qed.

Lemma handleImagePrediction_const (data : payload) :
  exists v : string,
    v <> "" /\
    forall s : state File,
      handleImagePrediction Number_toString data s = setImageResult v s.
Proof.
  unfold handleImagePrediction.
  destruct (confidence data) as [c|];
    [destruct (negb (JS.truthy_num (Some c)) || JS.ltb c 70)|].
  - exists image_disclaimer. split; [discriminate | reflexivity].
  - eexists. split; [|reflexivity]. unfold annotation.
    destruct (JS.to_string (prediction data)); discriminate.
  - exists image_disclaimer. split; [discriminate | reflexivity].
Qed.

(** What a completed text submit does to any cells: it empties the
    input, appends [new], and either keeps the text verdict or stores
    a fixed non-empty one. *)
Lemma send_shape (r : state File) (o : outcome) :
  exists (new : list entry) (verdict : option string),
    length new <= 1 /\
    Forall (fun e => bot e <> "" /\ exists u b, e = TextEntry u b) new /\
    verdict <> Some "" /\
    forall s : state File,
      fst (send r o s)
      = {| message := ""; image := image s;
           chatHistory := (chatHistory s ++ new)%list;
           result := default (result s) verdict;
           imageResult := imageResult s |}.
Proof.
  unfold handleSendMessage.
  destruct o as [|status [data|]].
  - exists [catch_entry], None. repeat split; simpl; try lia; try easy.
    repeat constructor; [discriminate | eauto].
  - destruct (JS.truthy_str (response data)) as [label|] eqn:El;
      [|destruct (JS.truthy_str (error data)) as [err|] eqn:Ee].
    + destruct (handleChatResponse_const data) as (v & Hv & Hs).
      apply truthy_str_Some in El as [_ Hne].
      exists [TextEntry (message r) label], (Some v).
      repeat split; simpl; try lia; try congruence.
      * repeat constructor; [exact Hne | eauto].
      * intros s. rewrite Hs. reflexivity.
    + apply truthy_str_Some in Ee as [_ Hne].
      exists [TextEntry "Error" err], None.
      repeat split; simpl; try lia; try easy.
      repeat constructor; [exact Hne | eauto].
    + exists [], None. repeat split; simpl; try lia; try easy.
      intros s. now rewrite app_nil_r.
  - exists [catch_entry], None. repeat split; simpl; try lia; try easy.
    repeat constructor; [discriminate | eauto].
Qed.

(** The same for a completed upload of the file [img]. *)
Lemma upload_shape (r : state File) (o : outcome) (img : File) :
  image r = Some img ->
  exists (new : list entry) (verdict : option string),
    length new <= 1 /\
    Forall (fun e => bot e <> "" /\
                     (e = catch_entry \/
                      exists label, e = ImageEntry (createObjectURL img) label))
           new /\
    verdict <> Some "" /\
    forall s : state File,
      fst (upload r o s)
      = {| message := message s; image := None;
           chatHistory := (chatHistory s ++ new)%list;
           result := result s;
           imageResult := default (imageResult s) verdict |}.
Proof.
  intros Hi. unfold handleImageUpload. rewrite Hi.
  destruct o as [|status [data|]].
  - exists [catch_entry], None. repeat split; simpl; try lia; try easy.
    constructor; [split; [discriminate | now left] | constructor].
  - destruct (JS.truthy_str (prediction data)) as [label|] eqn:El.
    + destruct (handleImagePrediction_const data) as (v & Hv & Hs).
      apply truthy_str_Some in El as [_ Hne].
      exists [ImageEntry (createObjectURL img) label], (Some v).
      repeat split; simpl; try lia; try congruence.
      * constructor; [split; [exact Hne | right; eauto] | constructor].
      * intros s. rewrite Hs. reflexivity.
    + exists [], None. repeat split; simpl; try lia; try easy.
      intros s. now rewrite app_nil_r.
  - exists [catch_entry], None. repeat split; simpl; try lia; try easy.
    constructor; [split; [discriminate | now left] | constructor].
Qed.

(** X1: the channels own disjoint cells.  A completed text submit
    always empties the text input and never touches the selected image
    or the image verdict; a completed upload never touches the text
    input or the text verdict, and with a file selected it always
    clears the selection. *)
Theorem channels_own_their_cells (r s : state File) (o : outcome) :
  let a := fst (send r o s) in
  let b := fst (upload r o s) in
  (message a = "" /\ image a = image s /\ imageResult a = imageResult s) /\
  (message b = message s /\ result b = result s /\
   forall img, image r = Some img -> image b = None).
Proof.
  cbv zeta. split.
  - destruct (send_shape r o) as (new & v & _ & _ & _ & ->). now simpl.
  - destruct (image r) as [img|] eqn:Hi.
    + destruct (upload_shape r o img Hi) as (new & v & _ & _ & _ & ->).
      now simpl.
    + unfold handleImageUpload. rewrite Hi. simpl.
      repeat split. discriminate.
Qed.

(** X2: completions of the two channels commute on every cell but the
    transcript, where no entry is lost and the entries stand in the
    order of completion. *)
Theorem completions_commute (r1 r2 s : state File) (o1 o2 : outcome) :
  let a := fst (upload r2 o2 (fst (send r1 o1 s))) in
  let b := fst (send r1 o1 (fst (upload r2 o2 s))) in
  message a = message b /\ image a = image b /\
  result a = result b /\ imageResult a = imageResult b /\
  exists new1 new2 : list entry,
    chatHistory (fst (send r1 o1 s)) = (chatHistory s ++ new1)%list /\
    chatHistory (fst (upload r2 o2 s)) = (chatHistory s ++ new2)%list /\
    chatHistory a = (chatHistory s ++ new1 ++ new2)%list /\
    chatHistory b = (chatHistory s ++ new2 ++ new1)%list.
Proof.
  cbv zeta.
  destruct (send_shape r1 o1) as (new1 & v1 & _ & _ & _ & Hs).
  destruct (image r2) as [img|] eqn:Hi.
  - destruct (upload_shape r2 o2 img Hi) as (new2 & v2 & _ & _ & _ & Hu).
    rewrite !Hs, !Hu. simpl. repeat split.
    exists new1, new2. now rewrite <- !app_assoc.
  - assert (forall t, fst (upload r2 o2 t) = t) as Hu.
    { intros t. unfold handleImageUpload. now rewrite Hi. }
    rewrite !Hu, !Hs. simpl. repeat split.
    exists new1, []. now rewrite !app_nil_r.
Qed.

(** What one event appends has a bot text. *)
Lemma dispatch_appends_bot (ev : event File) (s : state File) :
  exists new : list entry,
    chatHistory (fst (dispatch createObjectURL Number_toString ev s))
    = (chatHistory s ++ new)%list /\
    Forall (fun e => bot e <> "") new.
Proof.
  destruct ev as [v|f|p|r o|r o]; cbn [dispatch];
    try (exists []; split; [simpl; now rewrite app_nil_r | constructor]).
  - destruct (send_shape r o) as (new & v & _ & Hnew & _ & ->).
    exists new. split; [reflexivity|].
    eapply Forall_impl; [exact Hnew | now intros e [He _]].
  - destruct (image r) as [img|] eqn:Hi.
    + destruct (upload_shape r o img Hi) as (new & v & _ & Hnew & _ & ->).
      exists new. split; [reflexivity|].
      eapply Forall_impl; [exact Hnew | now intros e [He _]].
    + unfold handleImageUpload. rewrite Hi. simpl.
      exists []. split; [now rewrite app_nil_r | constructor].
Qed.

(** X3: no event ever puts an entry with an empty bot text into the
    transcript: a transcript without one keeps that through any
    session. *)
Theorem bot_text_never_empty (evs : list (event File)) (s : state File) :
  Forall (fun e => bot e <> "") (chatHistory s) ->
  Forall (fun e => bot e <> "")
         (chatHistory (run createObjectURL Number_toString evs s)).
Proof.
  revert s. induction evs as [|ev evs IH]; intros s Hs; simpl; [exact Hs|].
  apply IH.
  destruct (dispatch_appends_bot ev s) as (new & -> & Hnew).
  apply Forall_app. now split.
Qed.

(** X4: where entries come from.  The text channel only ever adds Text
    entries; the image channel adds the connectivity entry or an Image
    entry whose URL is the object URL of the file its closure holds. *)
Theorem appended_entries (r s : state File) (o : outcome) (e : entry) :
  (e ∈ chatHistory (fst (send r o s)) ->
   e ∈ chatHistory s \/ exists u b, e = TextEntry u b) /\
  (e ∈ chatHistory (fst (upload r o s)) ->
   e ∈ chatHistory s \/ e = catch_entry \/
   exists img label,
     image r = Some img /\ e = ImageEntry (createObjectURL img) label).
Proof.
  split.
  - destruct (send_shape r o) as (new & v & _ & Hnew & _ & ->). simpl.
    intros [He|He]%elem_of_app; [now left | right].
    rewrite Forall_forall in Hnew. now destruct (Hnew e He).
  - destruct (image r) as [img|] eqn:Hi.
    + destruct (upload_shape r o img Hi) as (new & v & _ & Hnew & _ & ->).
      simpl. intros [He|He]%elem_of_app; [now left | right].
      rewrite Forall_forall in Hnew.
      destruct (Hnew e He) as [_ [->|[label ->]]]; [now left | right].
      now exists img, label.
    + unfold handleImageUpload. rewrite Hi. simpl. now left.
Qed.

(** X5: a verdict cell holds the verdict of the latest response only,
    and the two handlers do not disturb each other. *)
Theorem latest_verdict_wins (d1 d2 : payload) (s : state File) :
  handleChatResponse Number_toString d2
    (handleChatResponse Number_toString d1 s)
  = handleChatResponse Number_toString d2 s /\
  handleImagePrediction Number_toString d2
    (handleImagePrediction Number_toString d1 s)
  = handleImagePrediction Number_toString d2 s /\
  handleChatResponse Number_toString d1
    (handleImagePrediction Number_toString d2 s)
  = handleImagePrediction Number_toString d2
      (handleChatResponse Number_toString d1 s).
Proof.
  destruct (handleChatResponse_const d1) as (v1 & _ & H1).
  destruct (handleChatResponse_const d2) as (v2 & _ & H2).
  destruct (handleImagePrediction_const d1) as (w1 & _ & G1).
  destruct (handleImagePrediction_const d2) as (w2 & _ & G2).
  rewrite !H1, !H2, !G1, !G2. repeat split.
Qed.

(** X6: a text reply with a non-empty [response] is a labelled reply
    whatever else it carries: the exchange is appended with the raw
    label, the input is emptied, and the text verdict is the
    disclaimer or the label with the annotation of a confidence of at
    least 70. *)
Theorem send_labelled_reply
    (r s : state File) (status : Z) (data : payload) (label : string) :
  response data = Some label ->
  label <> "" ->
  let s' := fst (send r (Replied status (Some data)) s) in
  chatHistory s' = (chatHistory s ++ [TextEntry (message r) label])%list /\
  message s' = "" /\
  result s' = result (handleChatResponse Number_toString data s) /\
  (result s' = chat_disclaimer \/
   exists c, confidence data = Some c /\ (70 <= c)%Q /\
             result s' = label ++ annotation Number_toString c).
Proof.
  intros Hl Hne. unfold handleSendMessage. simpl.
  rewrite (proj2 (truthy_str_Some (response data) label) (conj Hl Hne)).
  simpl.
  destruct (handleChatResponse_frame Number_toString data s)
    as (_ & _ & -> & _).
  repeat split. unfold handleChatResponse. rewrite Hl.
  destruct (confidence data) as [c|]; [|now left].
  pose proof (low_guard c) as G.
  destruct (negb (JS.truthy_num (Some c)) || JS.ltb c 70); [now left|].
  right. exists c. repeat split.
  apply Qnot_lt_le. intros Hlt. apply G in Hlt. discriminate.
Qed.

(** X7: a click on a quick prompt changes nothing but the text input,
    and a submit from that render sends the prompt with the transcript
    and, on a labelled reply, appends the prompt as the user text. *)
Theorem prompt_then_submit
    (prompt : string) (s : state File) (status : Z)
    (data : payload) (label : string) :
  response data = Some label ->
  label <> "" ->
  let s1 := handlePromptClick prompt s in
  let done := send s1 (Replied status (Some data)) s1 in
  (message s1 = prompt /\ image s1 = image s /\
   chatHistory s1 = chatHistory s /\ result s1 = result s /\
   imageResult s1 = imageResult s) /\
  snd done
  = [Fetch "http://127.0.0.1:5001/chat" (ChatBody prompt (chatHistory s))] /\
  chatHistory (fst done)
  = (chatHistory s ++ [TextEntry prompt label])%list /\
  message (fst done) = "".
Proof.
  intros Hl Hne. cbv zeta. split; [now simpl|]. split; [reflexivity|].
  destruct (handleChatResponse_const data) as (v & _ & Hs).
  unfold handleSendMessage. cbn [fst].
  rewrite (proj2 (truthy_str_Some (response data) label) (conj Hl Hne)).
  rewrite (Hs (handlePromptClick prompt s)). now split.
Qed.

(** X12: an upload clears the selection in the cells, not in the
    render that started it.  After an upload with a file has
    completed, whatever its outcome, a submit from any render that
    sees the image cell as the completion left it only alerts, sends
    nothing and changes no cell; a submit from the render that started
    the upload still holds the file and sends it again. *)
Theorem resubmit_after_upload
    (r s : state File) (o o' : outcome) (img : File) :
  image r = Some img ->
  let s1 := fst (upload r o s) in
  (forall r' s' : state File,
     image r' = image s1 ->
     upload r' o' s' = (s', [Alert "Please upload an image."])) /\
  snd (upload r o' s1)
  = [Fetch "http://127.0.0.1:5001/predict_image" (FormBody img)].
Proof.
  intros Hi. cbv zeta. split.
  - destruct (upload_shape r o img Hi) as (new & v & _ & _ & _ & H).
    rewrite (H s). simpl. intros r' s' Hr'.
    unfold handleImageUpload. now rewrite Hr'.
  - unfold handleImageUpload. now rewrite Hi.
Qed.

End Channels.

(** * What the view shows *)

Section View.

Context {File : Type}.
Variable createObjectURL : File -> string.
Variable Number_toString : Q -> string.

Local Abbreviation run' :=
  (run (File := File) createObjectURL Number_toString).

Lemma verdictBanner_hidden (v : string) :
  verdictBanner v = Text "" <-> v = "".
Proof. destruct v; simpl; split; congruence. Qed.

Lemma verdictBanner_shown (v : string) :
  v <> "" ->
  verdictBanner v
  = Element "div" None [("className", "result-message")] [Text v].
Proof. destruct v; simpl; congruence. Qed.

Lemma chatMessage_inj (i j : nat) (e e' : entry) :
  chatMessage i e = chatMessage j e' -> i = j /\ e = e'.
Proof.
  unfold chatMessage, captioned.
  destruct e, e'; intros H; injection H; intros; subst; try discriminate;
    split; congruence.
Qed.

Lemma imap_chatMessage_inj (h : list entry) :
  forall (h' : list entry) (k : nat),
    imap (fun i => chatMessage (k + i)) h
    = imap (fun i => chatMessage (k + i)) h' ->
    h = h'.
Proof.
  induction h as [|e h IH]; intros [|e' h'] k; cbn [imap]; intros H;
    try discriminate; [reflexivity|].
  pose proof (f_equal (List.hd JsFalse) H) as He.
  pose proof (f_equal (@List.tl vnode) H) as Ht.
  cbn [List.hd List.tl] in He, Ht.
  apply chatMessage_inj in He as [_ ->]. f_equal.
  apply (IH h' (S k)).
  rewrite (imap_ext (fun i => chatMessage (S k + i))
             ((fun i => chatMessage (k + i)) ∘ S) h),
          (imap_ext (fun i => chatMessage (S k + i))
             ((fun i => chatMessage (k + i)) ∘ S) h');
    [exact Ht | |]; intros; unfold compose; f_equal; lia.
Qed.

(** X8: a session never re-renders the messages it found: the
    children of the [chat-history] element afterwards are the children
    before, with the same keys, followed by at most one new message
    per event. *)
Theorem rendered_messages_stable (evs : list (event File)) (s : state File) :
  exists more : list vnode,
    chatHistoryView (chatHistory (run' evs s))
    = Element "div" None [("className", "chat-history")]
        (imap chatMessage (chatHistory s) ++ more)%list /\
    length more <= length evs.
Proof.
  destruct (run_appends createObjectURL Number_toString evs s)
    as (added & -> & Hlen).
  unfold chatHistoryView. rewrite imap_app.
  eexists. split; [reflexivity|]. now rewrite length_imap.
Qed.

(** X9: the rendered transcript determines the transcript: two
    histories with the same [chat-history] element are equal. *)
Theorem chatHistoryView_inj (h h' : list entry) :
  chatHistoryView h = chatHistoryView h' <-> h = h'.
Proof.
  split; [|now intros ->].
  unfold chatHistoryView. intros H. injection H as H.
  now apply (imap_chatMessage_inj h h' 0).
Qed.

(** One event keeps a non-empty verdict non-empty. *)
Lemma dispatch_keeps_verdicts (ev : event File) (s : state File) :
  let s' := fst (dispatch createObjectURL Number_toString ev s) in
  (result s <> "" -> result s' <> "") /\
  (imageResult s <> "" -> imageResult s' <> "").
Proof.
  destruct ev as [v|f|p|r o|r o]; cbn [dispatch]; cbv zeta;
    try (simpl; tauto).
  - destruct (send_shape Number_toString r o) as (new & v & _ & _ & Hv & ->).
    simpl. destruct v as [v|]; simpl; [|tauto].
    split; [intros _ |tauto]. congruence.
  - destruct (image r) as [img|] eqn:Hi.
    + destruct (upload_shape createObjectURL Number_toString r o img Hi)
        as (new & v & _ & _ & Hv & ->).
      simpl. destruct v as [v|]; simpl; [|tauto].
      split; [tauto | intros _]. congruence.
    + unfold handleImageUpload. rewrite Hi. simpl. tauto.
Qed.

(** X10: a verdict banner, once shown, is shown for the rest of the
    session: no event sets a verdict cell back to the empty string. *)
Theorem verdict_banner_persists (evs : list (event File)) (s : state File) :
  (verdictBanner (result s) <> Text "" ->
   verdictBanner (result (run' evs s)) <> Text "") /\
  (verdictBanner (imageResult s) <> Text "" ->
   verdictBanner (imageResult (run' evs s)) <> Text "").
Proof.
  rewrite !verdictBanner_hidden.
  revert s. induction evs as [|ev evs IH]; intros s; simpl; [tauto|].
  destruct (dispatch_keeps_verdicts ev s) as [H1 H2].
  destruct (IH (fst (dispatch createObjectURL Number_toString ev s)))
    as [I1 I2].
  split; auto.
Qed.

(** X11: every labelled reply shows its verdict: after a text reply
    with a non-empty [response], or an upload answered with a
    non-empty [prediction], the banner of that channel is the
    [result-message] element holding the verdict. *)
Theorem verdict_banner_after_reply
    (r s : state File) (status : Z) (data : payload) (label : string) :
  label <> "" ->
  let banner v :=
    Element "div" None [("className", "result-message")] [Text v] in
  (response data = Some label ->
   let s' := fst (handleSendMessage Number_toString r
                    (Replied status (Some data)) s) in
   verdictBanner (result s') = banner (result s')) /\
  (prediction data = Some label -> image r <> None ->
   let s' := fst (handleImageUpload createObjectURL Number_toString r
                    (Replied status (Some data)) s) in
   verdictBanner (imageResult s') = banner (imageResult s')).
Proof.
  intros Hne. cbv zeta. split.
  - intros Hl. apply verdictBanner_shown.
    unfold handleSendMessage. simpl.
    rewrite (proj2 (truthy_str_Some (response data) label) (conj Hl Hne)).
    destruct (handleChatResponse_const Number_toString (File := File) data)
      as (v & Hv & ->).
    exact Hv.
  - intros Hl Hi. apply verdictBanner_shown.
    unfold handleImageUpload. destruct (image r) as [img|]; [|easy].
    simpl.
    rewrite (proj2 (truthy_str_Some (prediction data) label) (conj Hl Hne)).
    destruct (handleImagePrediction_const Number_toString (File := File) data)
      as (v & Hv & ->).
    exact Hv.
Qed.

End View.

(** * Further concrete sessions *)

Lemma channels_own_their_cells_witness :
  image (fst (handleImageUpload blob_url exponent_unused ready
                (Replied 200 (Some psoriasis)) ready)) = None.
Proof.
  exact (proj2 (proj2 (proj2
           (channels_own_their_cells blob_url exponent_unused ready ready
              (Replied 200 (Some psoriasis))))) "arm.png" eq_refl).
Defined.

Lemma bot_text_never_empty_witness :
  Forall (fun e => bot e <> "")
    (chatHistory
       (run blob_url exponent_unused
          [ SendMessage ready (Replied 200 (Some empty_error));
            ImageUpload ready (Replied 200 (Some empty_prediction));
            SendMessage ready (Replied 500 (Some server_fault));
            ImageUpload ready Rejected ] ready)).
Proof.
  assert (Forall (fun e => bot e <> "") (chatHistory ready)) as H
    by (repeat constructor; discriminate).
  exact (bot_text_never_empty blob_url exponent_unused _ ready H).
Defined.

Lemma appended_entries_witness :
  ImageEntry "blob:arm.png" "Psoriasis" ∈ chatHistory ready \/
  ImageEntry "blob:arm.png" "Psoriasis" = catch_entry \/
  exists img label,
    image ready = Some img /\
    ImageEntry "blob:arm.png" "Psoriasis" = ImageEntry (blob_url img) label.
Proof.
  apply (proj2 (appended_entries blob_url exponent_unused ready ready
                  (Replied 200 (Some psoriasis))
                  (ImageEntry "blob:arm.png" "Psoriasis"))).
  simpl. apply list_elem_of_further, list_elem_of_here.
Defined.

Lemma send_labelled_reply_witness :
  let s' := fst (handleSendMessage exponent_unused ready
                   (Replied 200
                      (Some {| response := Some "Eczema"; prediction := None;
                               error := Some "ignored";
                               confidence := Some 12%Q |})) ready) in
  chatHistory s'
  = [ TextEntry "Itching and dryness" "Eczema";
      TextEntry "Red rash on arms" "Eczema" ] /\
  message s' = "" /\
  result s' = chat_disclaimer.
Proof.
  assert ("Eczema" <> "") as Hne by discriminate.
  pose proof (send_labelled_reply exponent_unused ready ready 200
                {| response := Some "Eczema"; prediction := None;
                   error := Some "ignored"; confidence := Some 12%Q |}
                "Eczema" eq_refl Hne) as (H1 & H2 & H3 & _).
  split; [exact H1 | split; [exact H2 | exact H3]].
Defined.

Lemma prompt_then_submit_witness :
  let s1 := handlePromptClick "Skin inflammation" ready in
  let done := handleSendMessage exponent_unused s1
                (Replied 200 (Some eczema)) s1 in
  snd done
  = [ Fetch "http://127.0.0.1:5001/chat"
        (ChatBody "Skin inflammation"
           [TextEntry "Itching and dryness" "Eczema"]) ] /\
  chatHistory (fst done)
  = [ TextEntry "Itching and dryness" "Eczema";
      TextEntry "Skin inflammation" "Eczema" ].
Proof.
  assert ("Eczema" <> "") as Hne by discriminate.
  pose proof (prompt_then_submit exponent_unused "Skin inflammation" ready
                200 eczema "Eczema" eq_refl Hne) as (_ & H1 & H2 & _).
  split; [exact H1 | exact H2].
Defined.

Lemma resubmit_after_upload_witness :
  let s1 := fst (handleImageUpload blob_url exponent_unused ready
                   (Replied 200 (Some psoriasis)) ready) in
  handleImageUpload blob_url exponent_unused s1 Rejected s1
  = (s1, [Alert "Please upload an image."]) /\
  snd (handleImageUpload blob_url exponent_unused ready Rejected s1)
  = [Fetch "http://127.0.0.1:5001/predict_image" (FormBody "arm.png")].
Proof.
  pose proof (resubmit_after_upload blob_url exponent_unused ready ready
                (Replied 200 (Some psoriasis)) Rejected "arm.png" eq_refl)
    as [H1 H2].
  split; [exact (H1 _ _ eq_refl) | exact H2].
Defined.

Lemma verdict_banner_persists_witness :
  verdictBanner
    (result (run blob_url exponent_unused
               [ SendMessage ready Rejected;
                 SendMessage ready (Replied 200 (Some empty_object));
                 ChangeMessage "" ] ready))
  <> Text "".
Proof.
  assert (verdictBanner (result ready) <> Text "") as H by discriminate.
  exact (proj1 (verdict_banner_persists blob_url exponent_unused
                  [ SendMessage ready Rejected;
                    SendMessage ready (Replied 200 (Some empty_object));
                    ChangeMessage "" ] ready) H).
Defined.

Lemma verdict_banner_after_reply_witness :
  verdictBanner
    (imageResult (fst (handleImageUpload blob_url exponent_unused ready
                         (Replied 200 (Some psoriasis)) ready)))
  = Element "div" None [("className", "result-message")]
      [Text image_disclaimer].
Proof.
  assert ("Psoriasis" <> "") as Hne by discriminate.
  assert (image ready <> None) as Hi by discriminate.
  exact (proj2 (verdict_banner_after_reply blob_url exponent_unused
                  ready ready 200 psoriasis "Psoriasis" Hne) eq_refl Hi).
Defined.
